(** * Edit-session state machine of the image editor (src/App.tsx, src/types.ts)

    The React component [App] keeps its session in five [useState] hooks
    ([originalImage], [prompt], [status], [resultImage], [errorMsg]).  Its
    handlers call the setters with absolute values (never functional
    updates), so every handler is modelled as a function on one record
    [Session].  The browser's object-URL registry, which
    [URL.createObjectURL] allocates in, is kept in the same record: it is
    the display-handle resource of the spec.

    Asynchronous handlers are split at their suspension point: the part
    that runs up to [await] / [readAsDataURL], and the continuation that
    runs when the promise or the [FileReader] resolves.  Between the two,
    any other handler may run on the state. *)

From Stdlib Require Import String Ascii List Bool Arith Lia.
From Stdlib Require Import DecimalString NArith.
Import ListNotations.
Open Scope string_scope.

(** ** types.ts *)

Record ImageData := mkImageData {
  base64 : string;
  mimeType : string;
  url : string  (* for display purposes *)
}.

Inductive ProcessingState := IDLE | LOADING | SUCCESS | ERROR.

Definition ProcessingState_eqb (a b : ProcessingState) : bool :=
  match a, b with
  | IDLE, IDLE | LOADING, LOADING | SUCCESS, SUCCESS | ERROR, ERROR => true
  | _, _ => false
  end.

Record GeneratedResult := mkGeneratedResult {
  imageUrl : option string;  (* imageUrl?: string *)
  text : option string       (* text?: string *)
}.

(** ** JavaScript helpers *)

(** Truthiness of an optional string: [undefined] and [""] are falsy. *)
Definition truthy (o : option string) : option string :=
  match o with
  | Some s => if String.eqb s "" then None else Some s
  | None => None
  end.

(** [o || d] on an optional string. *)
Definition js_or (o : option string) (d : string) : string :=
  match truthy o with
  | Some s => s
  | None => d
  end.

(** White space removed by [String.prototype.trim], on one-byte code units
    (TAB, LF, VT, FF, CR, SPACE and NBSP; the other Unicode spaces do not
    fit in one byte). *)
Definition is_js_space (c : ascii) : bool :=
  match nat_of_ascii c with
  | 9 | 10 | 11 | 12 | 13 | 32 | 160 => true
  | _ => false
  end.

Fixpoint trim_start (l : list ascii) : list ascii :=
  match l with
  | [] => []
  | c :: l' => if is_js_space c then trim_start l' else l
  end.

Definition trim (s : string) : string :=
  string_of_list_ascii
    (rev (trim_start (rev (trim_start (list_ascii_of_string s))))).

(** [!s.trim()]: the trimmed string is empty. *)
Definition blank (s : string) : bool := String.eqb (trim s) "".

(** [s.startsWith(p)] *)
Definition startsWith (s p : string) : bool := String.prefix p s.

(** ** Session state *)

Record Session := mkSession {
  originalImage : option ImageData;
  prompt : string;
  status : ProcessingState;
  resultImage : option string;
  errorMsg : option string;
  (* browser object-URL registry: the URLs issued and not revoked *)
  live_urls : list string;
  next_url : nat
}.

(** Initial values of the hooks, and an empty URL registry. *)
Definition initial : Session :=
  mkSession None "" IDLE None None [] 0.

Definition setOriginalImage (v : option ImageData) (s : Session) : Session :=
  mkSession v (prompt s) (status s) (resultImage s) (errorMsg s)
    (live_urls s) (next_url s).
Definition setPrompt (v : string) (s : Session) : Session :=
  mkSession (originalImage s) v (status s) (resultImage s) (errorMsg s)
    (live_urls s) (next_url s).
Definition setStatus (v : ProcessingState) (s : Session) : Session :=
  mkSession (originalImage s) (prompt s) v (resultImage s) (errorMsg s)
    (live_urls s) (next_url s).
Definition setResultImage (v : option string) (s : Session) : Session :=
  mkSession (originalImage s) (prompt s) (status s) v (errorMsg s)
    (live_urls s) (next_url s).
Definition setErrorMsg (v : option string) (s : Session) : Session :=
  mkSession (originalImage s) (prompt s) (status s) (resultImage s) v
    (live_urls s) (next_url s).

(** [URL.createObjectURL]: issues a fresh blob URL and registers it live.
    There is no [URL.revokeObjectURL] anywhere in the source. *)
Definition createObjectURL (s : Session) : string * Session :=
  let u := "blob:" ++ NilEmpty.string_of_uint (Nat.to_uint (next_url s)) in
  (u, mkSession (originalImage s) (prompt s) (status s) (resultImage s)
        (errorMsg s) (u :: live_urls s) (S (next_url s))).

(** ** handleFileSelect *)

Record File := mkFile {
  file_type : string;   (* file.type, the declared content kind *)
  file_bytes : string
}.

(** Synchronous part.  [files] is [event.target.files[0]] when present.
    Returns the new state and the file handed to [reader.readAsDataURL],
    if any. *)
Definition handleFileSelect (files : option File) (s : Session)
  : Session * option File :=
  match files with
  | Some file =>
      if negb (startsWith (file_type file) "image/") then
        (setErrorMsg (Some "Please select a valid image file.") s, None)
      else (s, Some file)
  | None => (s, None)
  end.

(** [reader.onload]: [result] is [e.target.result], the data URL read. *)
Definition reader_onload (file : File) (result : string) (s : Session)
  : Session :=
  if String.eqb result "" then s
  else
    let (u, s1) := createObjectURL s in
    let s2 := setOriginalImage
                (Some (mkImageData result (file_type file) u)) s1 in
    let s3 := setResultImage None s2 in
    let s4 := setStatus IDLE s3 in
    setErrorMsg None s4.

(** ** handleGenerate *)

(** What [await editImageWithGemini(...)] delivers: a value, a thrown
    value whose [message] is a string or missing, or a rejection with
    [null] or [undefined], on which reading [error.message] in the catch
    block itself throws. *)
Inductive ClientResult :=
| Returned (r : GeneratedResult)
| Thrown (message : option string)
| ThrownNullish.

(** Request handed to [editImageWithGemini(originalImage, prompt)]. *)
Definition Request : Type := (ImageData * string)%type.

(** Synchronous part, up to the [await]. *)
Definition generate_start (s : Session) : Session * option Request :=
  match originalImage s with
  | None => (s, None)
  | Some img =>
      if blank (prompt s) then (s, None)
      else
        let s1 := setStatus LOADING s in
        let s2 := setErrorMsg None s1 in
        let s3 := setResultImage None s2 in
        (s3, Some (img, prompt s))
  end.

Definition no_image_message : string :=
  "The model responded, but did not generate an image.".
Definition unexpected_message : string := "An unexpected error occurred.".

(** Continuation after the [await], run on whatever the state is then. *)
Definition generate_resume (r : ClientResult) (s : Session) : Session :=
  match r with
  | Returned res =>
      match truthy (imageUrl res) with
      | Some u => setStatus SUCCESS (setResultImage (Some u) s)
      | None =>
          setStatus ERROR
            (setErrorMsg (Some (js_or (text res) no_image_message)) s)
      end
  | Thrown m =>
      setStatus ERROR (setErrorMsg (Some (js_or m unexpected_message)) s)
  | ThrownNullish =>
      (* [error.message] raises a TypeError before any setter runs: the
         promise of [handleGenerate] rejects and the state is left as is *)
      s
  end.

(** ** handleReset *)

(** The component also clears [fileInputRef.current.value]; that DOM node
    is not part of the session and is not modelled. *)
Definition handleReset (s : Session) : Session :=
  let s1 := setOriginalImage None s in
  let s2 := setResultImage None s1 in
  let s3 := setPrompt "" s2 in
  let s4 := setStatus IDLE s3 in
  setErrorMsg None s4.

(** ** Presentation guard *)

(** [disabled={status === LOADING || !prompt.trim()}] on the Generate
    button. *)
Definition generate_button_disabled (s : Session) : bool :=
  ProcessingState_eqb (status s) LOADING || blank (prompt s).

(** ** The edit client *)

Inductive EditOutcome :=
| ImageProduced (encodedImage : string)
| TextOnly (message : string)
| Failure (reason : string).

(** Modelled from the spec: [editImageWithGemini] of
    services/geminiService (not part of src/).  The spec's client resolves
    every request to an [EditOutcome] and never throws; the component
    receives it as a [GeneratedResult], whose only fields are [imageUrl]
    and [text]: an image goes to [imageUrl], the text of [TextOnly] and the
    reason of [Failure] go to [text]. *)
Definition outcome_result (o : EditOutcome) : GeneratedResult :=
  match o with
  | ImageProduced i => mkGeneratedResult (Some i) None
  | TextOnly m => mkGeneratedResult None (Some m)
  | Failure r => mkGeneratedResult None (Some r)
  end.

(** ** downloadImage *)

(** [downloadImage] at time [now] ([Date.now()]): the [href] and
    [download] name of the link it clicks, if it clicks one. *)
Definition download_name (now : N) : string :=
  "nano-banana-edit-" ++ NilEmpty.string_of_uint (N.to_uint now) ++ ".png".

Definition downloadImage (now : N) (s : Session) : option (string * string) :=
  match truthy (resultImage s) with
  | Some r => Some (r, download_name now)
  | None => None
  end.

(** ** PROMPT_CATEGORIES *)

Definition PROMPT_CATEGORIES : list (string * list string) := [
  ("Color & Atmosphere",
   ["Change colors to a cyberpunk neon palette";
    "Apply a vintage sepia filter with film grain";
    "Add a dramatic sunset lighting effect";
    "Change the lighting to a moody rainy night";
    "Convert to black and white high contrast photography"]);
  ("Art Styles",
   ["Convert this to a minimalist line art sketch";
    "Transform into a detailed oil painting";
    "Style as a 1990s anime screenshot";
    "Make it look like a 16-bit pixel art game";
    "Render as a low-poly 3D model"]);
  ("Creative Effects",
   ["Make the object look like it is made of translucent glass";
    "Add a futuristic holographic wireframe overlay";
    "Turn the scene into a miniature diorama tilt-shift";
    "Make it look like a sticker with a white border";
    "Apply a psychedelic glitch art effect"])
].

(** Every suggestion button's text ([category.prompts.map]). *)
Definition suggestions : list string := flat_map snd PROMPT_CATEGORIES.

(** ** Rendering *)

(** Content of the Result panel. *)
Inductive ResultPanel :=
| ResultShown (src : string)  (* result <img> with the download button *)
| Spinner                     (* "Consulting Nano Banana..." *)
| Placeholder.                (* "Your edited image will appear here" *)

Record Workspace := mkWorkspace {
  ws_prompt : string;          (* textarea value *)
  generate_disabled : bool;
  generate_label : string;
  error_box : option string;   (* {errorMsg && <div>{errorMsg}</div>} *)
  original_src : string;
  result_panel : ResultPanel
}.

Record View := mkView {
  intro : bool;                (* {!originalImage && ...} *)
  upload_input : bool;         (* the only <input type="file">, in the intro *)
  workspace : option Workspace (* {originalImage && ...} *)
}.

Definition render (s : Session) : View :=
  match originalImage s with
  | None => mkView true true None
  | Some img =>
      let loading := ProcessingState_eqb (status s) LOADING in
      mkView false false
        (Some (mkWorkspace (prompt s) (generate_button_disabled s)
                 (if loading then "Generating..." else "Generate Edit")
                 (truthy (errorMsg s)) (url img)
                 (match truthy (resultImage s) with
                  | Some r => ResultShown r
                  | None => if loading then Spinner else Placeholder
                  end)))
  end.

(** ** Runs of the component *)

(** Everything that can change the session: a handler bound in the JSX
    (the file input's [onChange], the Generate and Clear All buttons, the
    textarea's [onChange] and the suggestion buttons, which both call
    [setPrompt]), or the continuation of a read or a request. *)
Inductive Event :=
| ESelectFile (files : option File)
| EReaderLoad (file : File) (result : string)
| EGenerate
| EGenerateDone (r : ClientResult)
| EReset
| EPromptInput (value : string).

Definition step (e : Event) (s : Session) : Session :=
  match e with
  | ESelectFile f => fst (handleFileSelect f s)
  | EReaderLoad f r => reader_onload f r s
  | EGenerate => fst (generate_start s)
  | EGenerateDone r => generate_resume r s
  | EReset => handleReset s
  | EPromptInput v => setPrompt v s
  end.

(** Any handler or continuation in any order, each on the state it finds. *)
Definition run (es : list Event) (s : Session) : Session :=
  fold_left (fun s e => step e s) es s.

(** Whether the rendered page lets the user fire the event: its control is
    rendered (and, for Generate, enabled).  Continuations always may run. *)
Definition ui_allowed (e : Event) (s : Session) : bool :=
  match e with
  | ESelectFile _ => upload_input (render s)
  | EGenerate =>
      match workspace (render s) with
      | Some w => negb (generate_disabled w)
      | None => false
      end
  | EReset | EPromptInput _ =>
      match workspace (render s) with Some _ => true | None => false end
  | EReaderLoad _ _ | EGenerateDone _ => true
  end.

Definition ui_step (e : Event) (s : Session) : Session :=
  if ui_allowed e s then step e s else s.

Definition ui_run (es : list Event) (s : Session) : Session :=
  fold_left (fun s e => ui_step e s) es s.

(** ** Sample data *)

Example download_name_ex :
  downloadImage 1700000000000%N (setResultImage (Some "u") initial) =
  Some ("u", "nano-banana-edit-1700000000000.png").
Proof. reflexivity. Qed.


Definition sample_image : ImageData :=
  mkImageData "data:image/jpeg;base64,/9j/" "image/jpeg" "blob:0".

Definition editing (p : string) : Session :=
  mkSession (Some sample_image) p IDLE None None ["blob:0"] 1.

Example blank_ws : blank (" " ++ String (ascii_of_nat 9) "  ") = true.
Proof. reflexivity. Qed.
Example blank_word : blank "  test " = false.
Proof. reflexivity. Qed.
Example trim_ex : trim "  a b  " = "a b".
Proof. reflexivity. Qed.
Example url_ex : fst (createObjectURL (editing "x")) = "blob:1".
Proof. reflexivity. Qed.

Definition text_file : File := mkFile "text/plain" "hello".
Definition png_file : File := mkFile "image/png" "PNG".
Definition png_data : string := "data:image/png;base64,UE5H".

(** A session whose request is already in flight. *)
Definition loading_session : Session :=
  mkSession (Some sample_image) "test" LOADING None None ["blob:0"] 1.

(** ** Small lemmas on the setters *)

Lemma generate_start_run (s : Session) (img : ImageData) :
  originalImage s = Some img -> blank (prompt s) = false ->
  generate_start s =
    (setResultImage None (setErrorMsg None (setStatus LOADING s)),
     Some (img, prompt s)).
Proof. intros Hi Hb. unfold generate_start. rewrite Hi, Hb. reflexivity. Qed.

Lemma generate_resume_status (r : ClientResult) (s : Session) :
  r <> ThrownNullish ->
  status (generate_resume r s) = SUCCESS \/
  status (generate_resume r s) = ERROR.
Proof.
  intros Hr. destruct r as [res | m |]; simpl; [| now right | congruence].
  destruct (truthy (imageUrl res)); [now left | now right].
Qed.

(** ** Theorems *)

(** C1 (as stated, refuted).  The claim says a [TextOnly] outcome stores
    its own message.  With the empty message [""] the component stores its
    fallback text instead, because it reads [result.text || ...]. *)
Lemma C1_counterexample :
  errorMsg (generate_resume (Returned (outcome_result (TextOnly "")))
              (fst (generate_start (editing "test")))) <> Some "".
Proof. vm_compute. discriminate. Qed.

(** C1 (amended).  With an image and a non-blank prompt, [handleGenerate]
    issues the request and moves to LOADING with result and error cleared.
    When the response arrives the status is SUCCESS or ERROR, never
    LOADING.  A non-empty image gives SUCCESS with that image stored.
    [TextOnly m] and [Failure m] give ERROR with [m] stored when [m] is
    non-empty, and the fallback message when [m] is empty.  An empty image
    also gives ERROR with the fallback message. *)
Theorem C1_generate_outcome (s : Session) (img : ImageData) (o : EditOutcome) :
  originalImage s = Some img -> blank (prompt s) = false ->
  let s1 := fst (generate_start s) in
  let s2 := generate_resume (Returned (outcome_result o)) s1 in
  snd (generate_start s) = Some (img, prompt s) /\
  status s1 = LOADING /\ resultImage s1 = None /\ errorMsg s1 = None /\
  (status s2 = SUCCESS \/ status s2 = ERROR) /\
  match o with
  | ImageProduced i =>
      if String.eqb i "" then
        status s2 = ERROR /\ errorMsg s2 = Some no_image_message
      else status s2 = SUCCESS /\ resultImage s2 = Some i
  | TextOnly m | Failure m =>
      status s2 = ERROR /\ resultImage s2 = None /\
      errorMsg s2 = Some (if String.eqb m "" then no_image_message else m)
  end.
Proof.
  intros Hi Hb s1 s2.
  subst s1 s2. rewrite (generate_start_run s img Hi Hb). cbn [fst snd].
  do 4 (split; [reflexivity |]).
  split; [apply generate_resume_status; discriminate |].
  destruct o as [i | m | m]; simpl; unfold js_or, truthy;
    destruct (String.eqb _ "") eqn:E; simpl; repeat split; reflexivity.
Qed.

Lemma C1_generate_outcome_witness :
  originalImage (editing "test") = Some sample_image /\
  blank (prompt (editing "test")) = false /\
  status (generate_resume (Returned (outcome_result (TextOnly "no")))
            (fst (generate_start (editing "test")))) = ERROR.
Proof.
  split; [reflexivity | split; [reflexivity |]].
  pose proof (C1_generate_outcome (editing "test") sample_image
                (TextOnly "no") eq_refl eq_refl) as H.
  simpl in H. destruct H as (_ & _ & _ & _ & _ & H & _). exact H.
Defined.

(** C2 (as stated, refuted).  A request is issued from an editing session,
    [handleReset] runs while it is in flight, then the image response
    arrives.  The session ends in SUCCESS with the stale image stored, not
    in IDLE without a result. *)
Lemma C2_counterexample :
  let s1 := fst (generate_start (editing "test")) in
  let s3 := generate_resume (Returned (outcome_result (ImageProduced png_data)))
              (handleReset s1) in
  ~ (status s3 = IDLE /\ resultImage s3 = None).
Proof. vm_compute. intros [H _]. discriminate H. Qed.

(** C2 (amended).  Nothing discards a response that arrives after
    [handleReset].  A response or a non-nullish thrown value sets status,
    result and error message exactly as it would have without the reset,
    so the session ends in SUCCESS or ERROR.  A rejection with [null] or
    [undefined] changes nothing, so the reset session stays as it is.  In
    every case the image stays absent and the prompt empty. *)
Theorem C2_stale_response_applied (s : Session) (img : ImageData)
  (r : ClientResult) :
  originalImage s = Some img -> blank (prompt s) = false ->
  let s1 := fst (generate_start s) in
  let s3 := generate_resume r (handleReset s1) in
  (r <> ThrownNullish ->
   status s3 = status (generate_resume r s1) /\
   resultImage s3 = resultImage (generate_resume r s1) /\
   errorMsg s3 = errorMsg (generate_resume r s1) /\
   (status s3 = SUCCESS \/ status s3 = ERROR)) /\
  (r = ThrownNullish -> s3 = handleReset s1) /\
  originalImage s3 = None /\ prompt s3 = "".
Proof.
  intros Hi Hb s1 s3. subst s1 s3.
  rewrite (generate_start_run s img Hi Hb). cbn [fst].
  split; [intros Hr; split; [| split; [| split; [| apply generate_resume_status, Hr]]] |].
  1-3: destruct r as [res | m |]; simpl;
    try (destruct (truthy (imageUrl res))); simpl; auto; congruence.
  split; [intros ->; reflexivity |].
  destruct r as [res | m |]; simpl;
    try (destruct (truthy (imageUrl res))); simpl; auto.
Qed.

Lemma C2_stale_response_applied_witness :
  originalImage (editing "test") = Some sample_image /\
  blank (prompt (editing "test")) = false /\
  originalImage (generate_resume (Thrown (Some "timeout"))
    (handleReset (fst (generate_start (editing "test"))))) = None.
Proof.
  split; [reflexivity | split; [reflexivity |]].
  pose proof (C2_stale_response_applied (editing "test") sample_image
                (Thrown (Some "timeout")) eq_refl eq_refl) as H.
  simpl in H. destruct H as (_ & _ & H & _). exact H.
Defined.

(** C3 (as stated, refuted).  Selecting a text file from the initial
    session writes the rejection text into [errorMsg]. *)
Lemma C3_counterexample :
  errorMsg (fst (handleFileSelect (Some text_file) initial))
  <> errorMsg initial.
Proof. vm_compute. discriminate. Qed.

(** C3 (amended).  A file whose type does not start with "image/" is
    rejected before any read is started.  The image, prompt, result,
    status and display handles keep their values, and [errorMsg] is set to
    "Please select a valid image file.". *)
Theorem C3_non_image_rejected (s : Session) (f : File) :
  startsWith (file_type f) "image/" = false ->
  let (s', rd) := handleFileSelect (Some f) s in
  rd = None /\
  originalImage s' = originalImage s /\ prompt s' = prompt s /\
  status s' = status s /\ resultImage s' = resultImage s /\
  live_urls s' = live_urls s /\
  errorMsg s' = Some "Please select a valid image file.".
Proof.
  intros H. unfold handleFileSelect. rewrite H. simpl.
  repeat split; reflexivity.
Qed.

Lemma C3_non_image_rejected_witness :
  startsWith (file_type text_file) "image/" = false /\
  snd (handleFileSelect (Some text_file) (editing "x")) = None.
Proof.
  split; [reflexivity |].
  pose proof (C3_non_image_rejected (editing "x") text_file eq_refl) as H.
  destruct (handleFileSelect (Some text_file) (editing "x")) as [s' rd].
  destruct H as [H _]. exact H.
Defined.

(** C4 (as stated, refuted).  [handleGenerate] called during LOADING, with
    an image and a non-blank prompt, starts a second submission. *)
Lemma C4_counterexample : snd (generate_start loading_session) <> None.
Proof. vm_compute. discriminate. Qed.

(** C4 (amended).  [handleGenerate] has no LOADING guard of its own: in
    LOADING, with an image and a non-blank prompt, it issues a new request
    and stays in LOADING.  Only the presentation stops it: the Generate
    button is disabled while the status is LOADING. *)
Theorem C4_no_core_loading_guard (s : Session) (img : ImageData) :
  status s = LOADING -> originalImage s = Some img ->
  blank (prompt s) = false ->
  snd (generate_start s) = Some (img, prompt s) /\
  status (fst (generate_start s)) = LOADING /\
  generate_button_disabled s = true.
Proof.
  intros Hs Hi Hb. rewrite (generate_start_run s img Hi Hb). simpl.
  unfold generate_button_disabled. rewrite Hs. auto.
Qed.

Lemma C4_no_core_loading_guard_witness :
  status loading_session = LOADING /\
  originalImage loading_session = Some sample_image /\
  blank (prompt loading_session) = false /\
  snd (generate_start loading_session) = Some (sample_image, "test").
Proof.
  split; [reflexivity | split; [reflexivity | split; [reflexivity |]]].
  exact (proj1 (C4_no_core_loading_guard loading_session sample_image
                  eq_refl eq_refl eq_refl)).
Defined.

(** C5.  Without an image, or with an empty or white-space prompt,
    [handleGenerate] returns at once: the session is unchanged and no
    request is issued. *)
Theorem C5_generate_noop (s : Session) :
  originalImage s = None \/ blank (prompt s) = true ->
  generate_start s = (s, None).
Proof.
  intros [H | H]; unfold generate_start.
  - rewrite H. reflexivity.
  - destruct (originalImage s); [rewrite H |]; reflexivity.
Qed.

Lemma C5_generate_noop_witness :
  blank (prompt (editing " ")) = true /\
  generate_start (editing " ") = (editing " ", None).
Proof.
  split; [reflexivity |].
  apply C5_generate_noop. right. reflexivity.
Defined.

(** C6 (code defect).  The catch block reads [error.message] unguarded.
    When [editImageWithGemini] rejects with [undefined] (or [null]), that
    read throws, no setter runs, and the session issued from an editing
    session stays in LOADING with no error message, although the fallback
    "An unexpected error occurred." is there for a missing message. *)
Theorem C6_nullish_fault_stays_loading :
  let s1 := fst (generate_start (editing "test")) in
  let s2 := generate_resume ThrownNullish s1 in
  status s1 = LOADING /\ status s2 = LOADING /\ errorMsg s2 = None.
Proof. vm_compute. auto. Qed.


(** C7.  From any session, [handleReset] leaves no image, no result, no
    error message, an empty prompt and the status IDLE. *)
Theorem C7_reset_clears (s : Session) :
  let s' := handleReset s in
  originalImage s' = None /\ resultImage s' = None /\ errorMsg s' = None /\
  prompt s' = "" /\ status s' = IDLE.
Proof. simpl. repeat split. Qed.

(** C8 (as stated, refuted).  In an editing session whose image holds the
    handle "blob:0", both a new acquisition and [handleReset] leave
    "blob:0" live. *)
Lemma C8_counterexample :
  url sample_image = "blob:0" /\
  In "blob:0" (live_urls (reader_onload png_file png_data (editing "x"))) /\
  In "blob:0" (live_urls (handleReset (editing "x"))).
Proof. vm_compute. auto. Qed.

(** C8 (amended).  No display handle is ever released.  [handleReset]
    keeps every issued handle live, and an acquisition keeps the old ones
    live while it may add a new one. *)
Theorem C8_handles_never_released (s : Session) (f : File) (r : string) :
  live_urls (handleReset s) = live_urls s /\
  incl (live_urls s) (live_urls (reader_onload f r s)).
Proof.
  split; [reflexivity |].
  unfold reader_onload. destruct (String.eqb r "").
  - apply incl_refl.
  - simpl. apply incl_tl, incl_refl.
Qed.

(** C9.  [handleReset] is idempotent. *)
Theorem C9_reset_idempotent (s : Session) :
  handleReset (handleReset s) = handleReset s.
Proof. destruct s. reflexivity. Qed.

(** C10.  When the reader delivers a non-empty data URL, the new image is
    stored with the file's type and a fresh display handle, the result and
    error message are cleared and the status is IDLE, whatever the status
    was before. *)
Theorem C10_acquire_resets_outcome (s : Session) (f : File) (r : string) :
  r <> "" ->
  let s' := reader_onload f r s in
  originalImage s' =
    Some (mkImageData r (file_type f) (fst (createObjectURL s))) /\
  resultImage s' = None /\ errorMsg s' = None /\ status s' = IDLE.
Proof.
  intros Hr. apply String.eqb_neq in Hr.
  unfold reader_onload. rewrite Hr. simpl. repeat split.
Qed.

Lemma C10_acquire_resets_outcome_witness :
  png_data <> "" /\
  status (reader_onload png_file png_data
            (generate_resume (Thrown None) loading_session)) = IDLE.
Proof.
  split; [discriminate |].
  pose proof (C10_acquire_resets_outcome
                (generate_resume (Thrown None) loading_session) png_file
                png_data ltac:(discriminate)) as H.
  simpl in H. destruct H as (_ & _ & _ & H). exact H.
Defined.

(** ** Further properties of the component *)

Lemma truthy_js_or (o : option string) (d : string) :
  d <> "" -> truthy (Some (js_or o d)) <> None.
Proof.
  intros Hd. unfold js_or.
  destruct (truthy o) as [x |] eqn:E.
  - destruct o as [y |]; simpl in E; [| discriminate].
    destruct (String.eqb y "") eqn:Ey; [discriminate |].
    injection E as <-. simpl. rewrite Ey. discriminate.
  - simpl. apply String.eqb_neq in Hd. rewrite Hd. discriminate.
Qed.

Lemma generate_start_cases (s : Session) :
  generate_start s = (s, None) \/
  exists img, originalImage s = Some img /\ blank (prompt s) = false /\
    generate_start s =
      (setResultImage None (setErrorMsg None (setStatus LOADING s)),
       Some (img, prompt s)).
Proof.
  unfold generate_start. destruct (originalImage s) as [img |]; [| now left].
  destruct (blank (prompt s)) eqn:Eb; [now left | right].
  exists img. auto.
Qed.

(** Session invariant kept by every handler and continuation. *)
Definition session_inv (s : Session) : Prop :=
  (status s = SUCCESS -> truthy (resultImage s) <> None) /\
  (status s = ERROR -> truthy (errorMsg s) <> None) /\
  (status s = LOADING -> originalImage s <> None).

Lemma step_inv (e : Event) (s : Session) :
  session_inv s -> session_inv (step e s).
Proof.
  intros (H1 & H2 & H3).
  destruct e as [[f |] | f r | | [res | m |] | | v]; simpl.
  - unfold handleFileSelect. destruct (negb _); simpl;
      [| exact (conj H1 (conj H2 H3))].
    repeat split; [exact H1 | intros _; discriminate | exact H3].
  - exact (conj H1 (conj H2 H3)).
  - unfold reader_onload. destruct (String.eqb r "");
      [exact (conj H1 (conj H2 H3)) |].
    simpl. repeat split; discriminate.
  - destruct (generate_start_cases s) as [E | (img & Ei & Eb & E)];
      rewrite E; simpl; [exact (conj H1 (conj H2 H3)) |].
    repeat split; simpl; intros H; try discriminate H.
    rewrite Ei. discriminate.
  - destruct (truthy (imageUrl res)) as [u |] eqn:Eu; simpl;
      repeat split; try discriminate.
    + intros _. destruct (imageUrl res) as [x |]; simpl in Eu;
        [| discriminate].
      destruct (String.eqb x "") eqn:Ex; [discriminate |].
      injection Eu as <-. simpl. rewrite Ex. discriminate.
    + intros _. apply truthy_js_or. discriminate.
  - repeat split; try discriminate. intros _.
    apply truthy_js_or. discriminate.
  - exact (conj H1 (conj H2 H3)).
  - repeat split; discriminate.
  - exact (conj H1 (conj H2 H3)).
Qed.

Lemma run_inv (es : list Event) (s : Session) :
  session_inv s -> session_inv (run es s).
Proof.
  revert s. induction es as [| e es IH]; intros s Hs; simpl; auto.
  apply IH, step_inv, Hs.
Qed.

Lemma ui_step_inv (e : Event) (s : Session) :
  session_inv s -> (status s = LOADING -> resultImage s = None /\ errorMsg s = None) ->
  session_inv (ui_step e s) /\
  (status (ui_step e s) = LOADING ->
   resultImage (ui_step e s) = None /\ errorMsg (ui_step e s) = None).
Proof.
  intros Hinv HL. unfold ui_step.
  destruct (ui_allowed e s) eqn:Ea; [| auto].
  split; [apply step_inv, Hinv |].
  destruct Hinv as (H1 & H2 & H3).
  destruct e as [[f |] | f r | | r | | v]; simpl in *.
  - unfold render in Ea. destruct (originalImage s) eqn:Ei; [discriminate |].
    unfold handleFileSelect. destruct (negb _); simpl;
      intros HS; exfalso; apply H3; auto.
  - exact HL.
  - unfold reader_onload. destruct (String.eqb r ""); [exact HL |].
    simpl. discriminate.
  - destruct (generate_start_cases s) as [E | (img & Ei & Eb & E)];
      rewrite E; simpl; auto.
  - destruct r as [res | m |] eqn:Er; [| | exact HL];
      (destruct (generate_resume_status r s) as [E | E];
       [subst r; discriminate | subst r; rewrite E; discriminate
       | subst r; rewrite E; discriminate]).
  - discriminate.
  - exact HL.
Qed.

Lemma ui_run_inv (es : list Event) (s : Session) :
  session_inv s -> (status s = LOADING -> resultImage s = None /\ errorMsg s = None) ->
  session_inv (ui_run es s) /\
  (status (ui_run es s) = LOADING ->
   resultImage (ui_run es s) = None /\ errorMsg (ui_run es s) = None).
Proof.
  revert s. induction es as [| e es IH]; intros s H1 H2; simpl; auto.
  destruct (ui_step_inv e s H1 H2) as [H3 H4]. apply IH; auto.
Qed.

Lemma initial_inv : session_inv initial.
Proof. repeat split; simpl; intros H; discriminate H. Qed.

(** A session where an image has been picked, loaded and submitted. *)
Definition submitted_events : list Event :=
  [ESelectFile (Some png_file); EReaderLoad png_file png_data;
   EPromptInput "Convert to black and white"; EGenerate].

(** X1.  Whatever handlers and continuations run, in any order, from the
    initial session: SUCCESS comes with a non-empty result image, ERROR
    with a non-empty error message, and LOADING with an image present. *)
Theorem X1_run_invariant (es : list Event) :
  let s := run es initial in
  (status s = SUCCESS -> truthy (resultImage s) <> None) /\
  (status s = ERROR -> truthy (errorMsg s) <> None) /\
  (status s = LOADING -> originalImage s <> None).
Proof. apply run_inv, initial_inv. Qed.

(** X2.  When the user can only use the controls the page renders (and
    continuations run at any time), a LOADING session never holds a result
    image or an error message. *)
Theorem X2_ui_loading_clean (es : list Event) :
  let s := ui_run es initial in
  status s = LOADING -> resultImage s = None /\ errorMsg s = None.
Proof.
  apply (ui_run_inv es initial initial_inv). intros H; discriminate H.
Qed.

Lemma X2_ui_loading_clean_witness :
  status (ui_run submitted_events initial) = LOADING /\
  errorMsg (ui_run submitted_events initial) = None.
Proof.
  assert (HL : status (ui_run submitted_events initial) = LOADING)
    by (vm_compute; reflexivity).
  split; [exact HL |].
  exact (proj2 (X2_ui_loading_clean submitted_events HL)).
Defined.

(** X3.  In such a LOADING session the workspace is rendered, its Generate
    button is disabled and reads "Generating...", no error box is shown
    and the Result panel shows the spinner. *)
Theorem X3_ui_loading_view (es : list Event) :
  let s := ui_run es initial in
  status s = LOADING ->
  exists w, workspace (render s) = Some w /\
    generate_disabled w = true /\ generate_label w = "Generating..." /\
    error_box w = None /\ result_panel w = Spinner.
Proof.
  intros s HL.
  destruct (ui_run_inv es initial initial_inv) as [(_ & _ & H3) H4];
    [intros H; discriminate H |].
  fold s in H3, H4. destruct (H4 HL) as [Hr He].
  unfold render, generate_button_disabled. rewrite HL, Hr, He.
  destruct (originalImage s) as [img |]; [| exfalso; apply H3; auto].
  eexists. simpl. repeat split.
Qed.

Lemma X3_ui_loading_view_witness :
  status (ui_run submitted_events initial) = LOADING /\
  exists w, workspace (render (ui_run submitted_events initial)) = Some w /\
    result_panel w = Spinner.
Proof.
  split; [vm_compute; reflexivity |].
  destruct (X3_ui_loading_view submitted_events)
    as (w & Hw & _ & _ & _ & Hp); [vm_compute; reflexivity |].
  exists w. split; assumption.
Defined.

Lemma truthy_some (o : option string) (x : string) :
  truthy o = Some x -> o = Some x /\ x <> "".
Proof.
  destruct o as [y |]; simpl; [| discriminate].
  destruct (String.eqb y "") eqn:E; [discriminate |].
  intros H; injection H as <-. split; [reflexivity |].
  apply String.eqb_neq, E.
Qed.

Definition success_events : list Event :=
  submitted_events ++
  [EGenerateDone (Returned (mkGeneratedResult (Some png_data) None))].

Definition error_events : list Event :=
  submitted_events ++ [EGenerateDone (Thrown (Some "timeout"))].

(** X4.  After any run from the initial session, a SUCCESS session with an
    image shows its stored, non-empty result in the Result panel, and
    [downloadImage] downloads exactly that result as
    nano-banana-edit-<now>.png. *)
Theorem X4_success_view_download (es : list Event) (now : N) :
  let s := run es initial in
  status s = SUCCESS -> originalImage s <> None ->
  exists r, resultImage s = Some r /\ r <> "" /\
    (exists w, workspace (render s) = Some w /\ result_panel w = ResultShown r) /\
    downloadImage now s = Some (r, download_name now).
Proof.
  intros s HS Hi.
  destruct (X1_run_invariant es) as (H1 & _ & _). fold s in H1.
  specialize (H1 HS).
  destruct (truthy (resultImage s)) as [r |] eqn:Er; [| congruence].
  destruct (truthy_some _ _ Er) as [Hr Hne].
  exists r. split; [exact Hr | split; [exact Hne | split]].
  - unfold render. destruct (originalImage s) as [img |]; [| congruence].
    eexists. split; [reflexivity |]. simpl. rewrite Er. reflexivity.
  - unfold downloadImage. rewrite Er. reflexivity.
Qed.

Lemma X4_success_view_download_witness :
  status (run success_events initial) = SUCCESS /\
  originalImage (run success_events initial) <> None /\
  downloadImage 1700000000000%N (run success_events initial) =
    Some (png_data, download_name 1700000000000%N).
Proof.
  split; [vm_compute; reflexivity |].
  assert (Hi : originalImage (run success_events initial) <> None)
    by (vm_compute; discriminate).
  split; [exact Hi |].
  destruct (X4_success_view_download success_events 1700000000000%N)
    as (r & Hr & _ & _ & Hd); [vm_compute; reflexivity | exact Hi |].
  rewrite Hd. vm_compute in Hr. injection Hr as <-. reflexivity.
Defined.

(** X5.  After any run from the initial session, an ERROR session with an
    image shows its stored, non-empty error message in the error box. *)
Theorem X5_error_view (es : list Event) :
  let s := run es initial in
  status s = ERROR -> originalImage s <> None ->
  exists m, errorMsg s = Some m /\ m <> "" /\
    exists w, workspace (render s) = Some w /\ error_box w = Some m.
Proof.
  intros s HE Hi.
  destruct (X1_run_invariant es) as (_ & H2 & _). fold s in H2.
  specialize (H2 HE).
  destruct (truthy (errorMsg s)) as [m |] eqn:Em; [| congruence].
  destruct (truthy_some _ _ Em) as [Hm Hne].
  exists m. split; [exact Hm | split; [exact Hne |]].
  unfold render. destruct (originalImage s) as [img |]; [| congruence].
  eexists. split; [reflexivity |]. simpl. exact Em.
Qed.

Lemma X5_error_view_witness :
  status (run error_events initial) = ERROR /\
  errorMsg (run error_events initial) = Some "timeout".
Proof.
  split; [vm_compute; reflexivity |].
  destruct (X5_error_view error_events) as (m & Hm & _);
    [vm_compute; reflexivity | vm_compute; discriminate |].
  rewrite Hm. vm_compute in Hm. symmetry. exact Hm.
Defined.

(** X6.  A non-image file can only be picked while no image is loaded
    (the upload input exists only then).  Its rejection message is stored
    but not displayed: the page still shows only the intro with the upload
    input, and the error box, which lives in the workspace, is absent. *)
Theorem X6_rejection_not_rendered (s : Session) (f : File) :
  upload_input (render s) = true ->
  startsWith (file_type f) "image/" = false ->
  let s' := fst (handleFileSelect (Some f) s) in
  errorMsg s' = Some "Please select a valid image file." /\
  workspace (render s') = None /\ upload_input (render s') = true.
Proof.
  intros Hu Ht. unfold handleFileSelect. rewrite Ht. simpl.
  unfold render in *. simpl.
  destruct (originalImage s); [discriminate | auto].
Qed.

Lemma X6_rejection_not_rendered_witness :
  upload_input (render initial) = true /\
  startsWith (file_type text_file) "image/" = false /\
  workspace (render (fst (handleFileSelect (Some text_file) initial))) = None.
Proof.
  split; [reflexivity | split; [reflexivity |]].
  exact (proj1 (proj2 (X6_rejection_not_rendered initial text_file
                         eq_refl eq_refl))).
Defined.

(** X7.  [downloadImage] does nothing after Clear All, from any session.
    Once a request is issued it does nothing while the request is in
    flight and after the request ends without an image: a response whose
    [imageUrl] is missing or empty, a thrown fault, or a nullish
    rejection. *)
Theorem X7_no_download_without_result (s : Session) (now : N) :
  downloadImage now (handleReset s) = None /\
  (forall img, originalImage s = Some img -> blank (prompt s) = false ->
   let s1 := fst (generate_start s) in
   downloadImage now s1 = None /\
   (forall m, downloadImage now (generate_resume (Thrown m) s1) = None) /\
   downloadImage now (generate_resume ThrownNullish s1) = None /\
   (forall res, truthy (imageUrl res) = None ->
    downloadImage now (generate_resume (Returned res) s1) = None)).
Proof.
  split; [reflexivity |].
  intros img Hi Hb s1. subst s1. rewrite (generate_start_run s img Hi Hb).
  repeat split. intros res Hn. simpl. rewrite Hn. reflexivity.
Qed.

Lemma X7_no_download_without_result_witness :
  originalImage (editing "test") = Some sample_image /\
  blank (prompt (editing "test")) = false /\
  downloadImage 0%N (generate_resume
    (Returned (mkGeneratedResult (Some "") (Some "no")))
    (fst (generate_start (editing "test")))) = None.
Proof.
  split; [reflexivity | split; [reflexivity |]].
  destruct (X7_no_download_without_result (editing "test") 0%N) as [_ H].
  destruct (H sample_image eq_refl eq_refl) as (_ & _ & _ & H4).
  apply H4. reflexivity.
Defined.

(** X8.  Every suggestion of [PROMPT_CATEGORIES] is a non-blank prompt:
    clicking one in a session with an image, outside LOADING, enables the
    Generate button, and Generate then submits exactly that suggestion. *)
Theorem X8_suggestion_submittable (s : Session) (img : ImageData) (p : string) :
  In p suggestions -> originalImage s = Some img -> status s <> LOADING ->
  let s' := setPrompt p s in
  generate_button_disabled s' = false /\
  snd (generate_start s') = Some (img, p).
Proof.
  intros Hp Hi Hs s'.
  assert (Hall : forallb (fun q => negb (blank q)) suggestions = true)
    by (vm_compute; reflexivity).
  rewrite forallb_forall in Hall. specialize (Hall p Hp).
  apply negb_true_iff in Hall.
  split.
  - unfold generate_button_disabled. subst s'. simpl. rewrite Hall.
    destruct (status s); simpl; congruence.
  - rewrite (generate_start_run s' img Hi Hall). reflexivity.
Qed.

Lemma X8_suggestion_submittable_witness :
  In "Render as a low-poly 3D model" suggestions /\
  snd (generate_start (setPrompt "Render as a low-poly 3D model" (editing ""))) =
    Some (sample_image, "Render as a low-poly 3D model").
Proof.
  assert (Hin : In "Render as a low-poly 3D model" suggestions)
    by (simpl; tauto).
  split; [exact Hin |].
  exact (proj2 (X8_suggestion_submittable (editing "") sample_image
                  "Render as a low-poly 3D model" Hin eq_refl
                  ltac:(discriminate))).
Defined.

(** X9.  The instruction text changes only by typing, by a suggestion or
    by Clear All: file selection, image loading, Generate and the arrival
    of a response keep it. *)
Theorem X9_prompt_kept (e : Event) (s : Session) :
  (forall v, e <> EPromptInput v) -> e <> EReset ->
  prompt (step e s) = prompt s.
Proof.
  intros Hp Hr.
  destruct e as [[f |] | f r | | [res | m |] | | v]; simpl;
    try reflexivity.
  - unfold handleFileSelect. destruct (negb _); reflexivity.
  - unfold reader_onload. destruct (String.eqb r ""); reflexivity.
  - destruct (generate_start_cases s) as [E | (img & _ & _ & E)];
      rewrite E; reflexivity.
  - destruct (truthy (imageUrl res)); reflexivity.
  - congruence.
  - exfalso. apply (Hp v). reflexivity.
Qed.

Lemma X9_prompt_kept_witness :
  prompt (step EGenerate (editing "test")) = "test".
Proof.
  apply (X9_prompt_kept EGenerate (editing "test")); discriminate.
Defined.

(** X10.  The loaded image changes only when a read completes or on Clear
    All: file selection, prompt edits, Generate and the arrival of a
    response keep it. *)
Theorem X10_image_kept (e : Event) (s : Session) :
  (forall f r, e <> EReaderLoad f r) -> e <> EReset ->
  originalImage (step e s) = originalImage s.
Proof.
  intros Hl Hr.
  destruct e as [[f |] | f r | | [res | m |] | | v]; simpl;
    try reflexivity.
  - unfold handleFileSelect. destruct (negb _); reflexivity.
  - exfalso. apply (Hl f r). reflexivity.
  - destruct (generate_start_cases s) as [E | (img & _ & _ & E)];
      rewrite E; reflexivity.
  - destruct (truthy (imageUrl res)); reflexivity.
  - congruence.
Qed.

Lemma X10_image_kept_witness :
  originalImage (step (EGenerateDone (Thrown None)) (editing "test")) =
    Some sample_image.
Proof.
  apply (X10_image_kept (EGenerateDone (Thrown None)) (editing "test"));
    discriminate.
Defined.

(** X11.  When a read delivers a non-empty data URL, the page shows the
    workspace: the original is displayed through the newly issued, live
    display handle, with no error box, the placeholder in the Result panel
    and the Generate button labelled "Generate Edit". *)
Theorem X11_loaded_view (s : Session) (f : File) (r : string) :
  r <> "" ->
  let s' := reader_onload f r s in
  exists w, workspace (render s') = Some w /\
    original_src w = fst (createObjectURL s) /\
    In (original_src w) (live_urls s') /\
    error_box w = None /\ result_panel w = Placeholder /\
    generate_label w = "Generate Edit".
Proof.
  intros Hr. apply String.eqb_neq in Hr.
  unfold reader_onload. rewrite Hr.
  eexists. simpl. repeat split. left. reflexivity.
Qed.

Lemma X11_loaded_view_witness :
  png_data <> "" /\
  exists w, workspace (render (reader_onload png_file png_data initial)) = Some w /\
    original_src w = "blob:0".
Proof.
  assert (Hd : png_data <> "") by discriminate.
  split; [exact Hd |].
  destruct (X11_loaded_view initial png_file png_data Hd)
    as (w & Hw & Hs & _).
  exists w. split; [exact Hw | rewrite Hs; reflexivity].
Defined.
